(** * timeseries-io (python): Signal.py and ValueType.py

    A shallow embedding of the two Python source files.  Python values
    are a small inductive universe, instances are their attribute
    dictionaries, a module's global names are a dictionary, and code
    that may raise runs in an exception monad. *)

From Stdlib Require Import ZArith String List Bool.
From stdpp Require Import base option strings gmap.
Import ListNotations.

Local Open Scope string_scope.

(** ** Python values *)

(** Type objects whose type is [type]: the five the sources name, and
    any other such class, identified by its qualified name.  They
    compare by identity. *)
Inductive TypeRef : Type :=
  | ty_float
  | ty_int
  | ty_str
  | ty_bool
  | ty_date
  | ty_other (qualname : string).

(** Exceptions.  [UserException] is whatever a method written by the
    caller raises.  [Unmodelled] is no exception of Python: it marks a
    call that leaves what is described here (see [call]). *)
Inductive PyExn : Type :=
  | NameError (name : string)
  | AttributeError (attr : string)
  | TypeError (msg : string)
  | IndentationError (msg : string)
  | UserException (name : string)
  | Unmodelled (what : string).

(** What the [__eq__] of a class written by the caller does when it is
    called: answer the same truth value whatever the other operand is
    ([unittest.mock.ANY] answers [True]), or raise. *)
Inductive EqMethod : Type :=
  | eq_answers (b : bool)
  | eq_raises (e : PyExn).

(** The values the two files pass around: [None], booleans, integers,
    strings, type objects, imported modules, and objects whose type
    defines [__eq__]: instances of such a class, or classes with such
    a metaclass, told apart by name and not instances of [str].
    Floating-point numbers and containers are not represented. *)
Inductive PyVal : Type :=
  | PyNone
  | PyBool (b : bool)
  | PyInt (z : Z)
  | PyStr (s : string)
  | PyType (t : TypeRef)
  | PyModule (name : string)
  | PyObject (name : string) (eq : EqMethod).

(** ** Exceptions *)

Inductive res (A : Type) : Type :=
  | Ret (a : A)
  | Raise (e : PyExn).
Arguments Ret {A} a.
Arguments Raise {A} e.

#[global] Instance res_ret : MRet res := fun A a => Ret a.
#[global] Instance res_bind : MBind res := fun A B f m =>
  match m with
  | Ret a => f a
  | Raise e => Raise e
  end.

(** ** Equality, membership, isinstance *)

Definition TypeRef_eqb (a b : TypeRef) : bool :=
  match a, b with
  | ty_float, ty_float => true
  | ty_int, ty_int => true
  | ty_str, ty_str => true
  | ty_bool, ty_bool => true
  | ty_date, ty_date => true
  | ty_other n, ty_other m => String.eqb n m
  | _, _ => false
  end.

(** [a == b] between values with the built-in equality.  [True == 1]
    and [False == 0] as in Python; values of unrelated kinds are
    unequal. *)
Definition builtin_eq (a b : PyVal) : bool :=
  match a, b with
  | PyNone, PyNone => true
  | PyBool x, PyBool y => Bool.eqb x y
  | PyBool x, PyInt y => Z.eqb (Z.b2z x) y
  | PyInt x, PyBool y => Z.eqb x (Z.b2z y)
  | PyInt x, PyInt y => Z.eqb x y
  | PyStr x, PyStr y => String.eqb x y
  | PyType x, PyType y => TypeRef_eqb x y
  | PyModule x, PyModule y => String.eqb x y
  | _, _ => false
  end.

(** The [__eq__] the type of a value defines, if it defines one. *)
Definition custom_eq (v : PyVal) : option EqMethod :=
  match v with
  | PyObject _ m => Some m
  | _ => None
  end.

Definition run_eq (m : EqMethod) : res bool :=
  match m with
  | eq_answers b => Ret b
  | eq_raises e => Raise e
  end.

(** [a == b].  The left operand's [__eq__] is asked first; the
    built-in ones answer [NotImplemented] for an operand of a foreign
    type, and then the right operand's [__eq__] is asked. *)
Definition py_eq (a b : PyVal) : res bool :=
  match custom_eq a with
  | Some m => run_eq m
  | None =>
      match custom_eq b with
      | Some m => run_eq m
      | None => Ret (builtin_eq a b)
      end
  end.

(** [a is b], for the objects whose [==] may differ from it. *)
Definition same_object (a b : PyVal) : bool :=
  match a, b with
  | PyObject n _, PyObject m _ => String.eqb n m
  | _, _ => false
  end.

(** [x in (e1, ..., en)]: the elements in turn, [e is x or e == x],
    stopping at the first that holds. *)
Fixpoint py_in (x : PyVal) (tup : list PyVal) : res bool :=
  match tup with
  | [] => Ret false
  | e :: rest =>
      if same_object e x then Ret true
      else
        equal ← py_eq e x;
        if (equal : bool) then Ret true else py_in x rest
  end.

(** [isinstance(v, str)]. *)
Definition isinstance_str (v : PyVal) : bool :=
  match v with
  | PyStr _ => true
  | _ => false
  end.

(** ** Names and attributes *)

(** The builtin namespace, as far as the sources use it. *)
Definition builtins : gmap string PyVal :=
  <["float" := PyType ty_float]>
  (<["int" := PyType ty_int]>
  (<["str" := PyType ty_str]>
  (<["bool" := PyType ty_bool]> ∅))).

(** A name read in a function body: module globals, then builtins. *)
Definition load_name (globals : gmap string PyVal) (x : string) : res PyVal :=
  match globals !! x with
  | Some v => Ret v
  | None =>
      match builtins !! x with
      | Some v => Ret v
      | None => Raise (NameError x)
      end
  end.

(** [v.a] for the values that are not instances of the two classes. *)
Definition getattr (v : PyVal) (a : string) : res PyVal :=
  match v with
  | PyModule "datetime" =>
      if String.eqb a "date" then Ret (PyType ty_date)
      else if String.eqb a "datetime" then Ret (PyType (ty_other "datetime.datetime"))
      else Raise (AttributeError a)
  | _ => Raise (AttributeError a)
  end.

(** [self.a] on an instance, given its attribute dictionary. *)
Definition load_attr (self : gmap string PyVal) (a : string) : res PyVal :=
  match self !! a with
  | Some v => Ret v
  | None => Raise (AttributeError a)
  end.

(** [self.a = v]. *)
Definition store_attr (self : gmap string PyVal) (a : string) (v : PyVal)
  : gmap string PyVal :=
  <[a := v]> self.

(** ** Classes *)

(** A method takes the instance and the positional arguments, and gives
    the returned value with the instance afterwards, or raises. *)
Definition Method : Type :=
  gmap string PyVal -> list PyVal -> res (PyVal * gmap string PyVal).

(** [def m(self): return f(self)]. *)
Definition def0 (f : gmap string PyVal -> res PyVal) : Method :=
  fun self args =>
    match args with
    | [] => v ← f self; mret (v, self)
    | _ => Raise (TypeError "takes 1 positional argument")
    end.

(** [def m(self, x): body], falling off the end: returns [None]. *)
Definition def1 (f : gmap string PyVal -> PyVal -> gmap string PyVal) : Method :=
  fun self args =>
    match args with
    | [x] => mret (PyNone, f self x)
    | _ => Raise (TypeError "takes 2 positional arguments")
    end.

(** The [def]s of a class body in source order.  A [def] whose header
    is followed by no indented block has no body. *)
Definition ClassBody : Type := list (string * option Method).

Fixpoint find_def (c : ClassBody) (m : string) : option (option Method) :=
  match c with
  | [] => None
  | (n, b) :: rest => if String.eqb n m then Some b else find_def rest m
  end.

(** Compiling a class body: every [def] needs an indented block. *)
Fixpoint compile (c : ClassBody) : res unit :=
  match c with
  | [] => mret tt
  | (_, Some _) :: rest => compile rest
  | (_, None) :: _ =>
      Raise (IndentationError "expected an indented block after function definition")
  end.

(** Names of the form [__x__]: the protocol every instance inherits
    from [object] ([__setattr__], [__delattr__], [__getattribute__],
    [__repr__], [__eq__], ...). *)
Definition is_dunder (m : string) : bool :=
  String.prefix "__" m
  && String.eqb (String.substring (String.length m - 2) 2 m) "__"
  && (4 <=? String.length m)%nat.

(** Whether calling a value stored in an attribute can do anything but
    raise [TypeError]. *)
Definition callable (v : PyVal) : bool :=
  match v with
  | PyType _ | PyObject _ _ => true
  | _ => false
  end.

(** [self.m(args)].  A method the class body defines is run; a [def]
    without a body has nothing to run.  For any other name: a stored
    attribute is called, which raises [TypeError] when it holds a
    value that cannot be called and is not followed further when it
    can; a name of the object protocol is not followed either; and a
    name that is none of these is an [AttributeError].  An attribute
    stored under the name of a method of the class would hide the
    method; no method of the two classes stores one. *)
Definition call (c : ClassBody) (self : gmap string PyVal) (m : string)
    (args : list PyVal) : res (PyVal * gmap string PyVal) :=
  match find_def c m with
  | Some (Some f) => f self args
  | Some None =>
      Raise (IndentationError "expected an indented block after function definition")
  | None =>
      match self !! m with
      | Some v =>
          if callable v then Raise (Unmodelled m)
          else Raise (TypeError "object is not callable")
      | None =>
          if is_dunder m then Raise (Unmodelled m)
          else Raise (AttributeError m)
      end
  end.

(** The names a class body defines. *)
Definition defined_in (c : ClassBody) (m : string) : Prop :=
  In m (map fst c).

(** [C(args)]: a fresh instance with no attributes, then [__init__]. *)
Definition construct (c : ClassBody) (args : list PyVal) : res (gmap string PyVal) :=
  '(_, self) ← call c ∅ "__init__" args; mret self.

(** ** ValueType.py *)

Module ValueTypeItem.

(** [def __init__(self, name, value_type)] *)
Definition __init__ : Method :=
  fun self args =>
    match args with
    | [name; value_type] =>
        let self := store_attr self "_name" name in
        let self := store_attr self "_value_type" value_type in
        mret (PyNone, self)
    | _ => Raise (TypeError "takes 3 positional arguments")
    end.

Definition get_name : Method := def0 (fun self => load_attr self "_name").

Definition get_value_type : Method :=
  def0 (fun self => load_attr self "_value_type").

Definition __str__ : Method := def0 (fun self => load_attr self "_name").

Definition body : ClassBody :=
  [ ("__init__", Some __init__);
    ("get_name", Some get_name);
    ("get_value_type", Some get_value_type);
    ("__str__", Some __str__) ].

(** [str(item)]: calls [__str__], which has to return a [str]. *)
Definition str (self : gmap string PyVal) : res (string * gmap string PyVal) :=
  '(v, self) ← call body self "__str__" [];
  match v with
  | PyStr s => mret (s, self)
  | _ => Raise (TypeError "__str__ returned non-string")
  end.

End ValueTypeItem.

Module ValueType.

(** Module-level names of ValueType.py: [from enum import Enum],
    [import datetime], and the two classes. *)
Definition globals : gmap string PyVal :=
  <["Enum" := PyType (ty_other "enum.Enum")]>
  (<["datetime" := PyModule "datetime"]>
  (<["ValueTypeItem" := PyType (ty_other "ValueTypeItem")]>
  (<["ValueType" := PyType (ty_other "ValueType")]> ∅))).

Inductive t : Type := FLOAT | INTEGER | STRING | BOOLEAN | DATETIME.

(** [for item in ValueType]: the members in definition order. *)
Definition members : list t := [FLOAT; INTEGER; STRING; BOOLEAN; DATETIME].

(** [item.value]: the right-hand sides of the class body. *)
Definition value (item : t) : res (gmap string PyVal) :=
  match item with
  | FLOAT =>
      float_ ← load_name globals "float";
      construct ValueTypeItem.body [PyStr "float"; float_]
  | INTEGER =>
      int_ ← load_name globals "int";
      construct ValueTypeItem.body [PyStr "integer"; int_]
  | STRING =>
      str_ ← load_name globals "str";
      construct ValueTypeItem.body [PyStr "string"; str_]
  | BOOLEAN =>
      bool_ ← load_name globals "bool";
      construct ValueTypeItem.body [PyStr "boolean"; bool_]
  | DATETIME =>
      datetime_ ← load_name globals "datetime";
      date_ ← getattr datetime_ "date";
      construct ValueTypeItem.body [PyStr "datetime"; date_]
  end.

(** The loop of [get] over the remaining members; [and] evaluates its
    right operand only when the left one is true. *)
Fixpoint get_loop (items : list t) (value : PyVal) : res (option t) :=
  match items with
  | [] => mret None
  | item :: rest =>
      item_value ← ValueType.value item;
      by_name ←
        (if isinstance_str value then
           '(name, _) ← call ValueTypeItem.body item_value "get_name" [];
           py_eq name value
         else mret false);
      if (by_name : bool) then mret (Some item)
      else
        int_ ← load_name globals "int";
        float_ ← load_name globals "float";
        bool_ ← load_name globals "bool";
        str_ ← load_name globals "str";
        datetime_ ← load_name globals "datetime";
        date_ ← getattr datetime_ "date";
        by_type ←
          (is_kind ← py_in value [int_; float_; bool_; str_; date_];
           if (is_kind : bool) then
             '(value_type, _) ←
               call ValueTypeItem.body item_value "get_value_type" [];
             py_eq value_type value
           else mret false);
        if (by_type : bool) then mret (Some item)
        else get_loop rest value
  end.

(** [def get(value)]; the result [None] is Python's [None]. *)
Definition get (value : PyVal) : res (option t) := get_loop members value.

End ValueType.

(** ** Signal.py *)

Module Signal.

(** Module-level names of Signal.py when a method body runs: the file
    has no import statement, it binds only the class. *)
Definition globals : gmap string PyVal :=
  <["Signal" := PyType (ty_other "Signal")]> ∅.

(** [def __init__(self, name, description, quantity, unit, value_type,
    n_dimensions)] *)
Definition __init__ : Method :=
  fun self args =>
    match args with
    | [name; description; quantity; unit; value_type; n_dimensions] =>
        let self := store_attr self "_name" name in
        let self := store_attr self "_description" description in
        let self := store_attr self "_quantity" quantity in
        let self := store_attr self "_unit" unit in
        let self := store_attr self "_value_type" value_type in
        let self := store_attr self "_n_dimensions" n_dimensions in
        float_ ← load_name globals "float";
        int_ ← load_name globals "int";
        is_numeric ← py_in value_type [float_; int_];
        if (is_numeric : bool) then
          mret (PyNone, store_attr self "_size" (PyInt 8))
        else
          datetime_ ← load_name globals "datetime";
          date_ ← getattr datetime_ "date";
          is_date ← py_eq value_type date_;
          if (is_date : bool) then
            mret (PyNone, store_attr self "_size" (PyInt 30))
          else
            bool_ ← load_name globals "bool";
            is_bool ← py_eq value_type bool_;
            if (is_bool : bool) then
              mret (PyNone, store_attr self "_size" (PyInt 1))
            else
              mret (PyNone, store_attr self "_size" (PyInt 0))
    | _ => Raise (TypeError "takes 7 positional arguments")
    end.

Definition get_name : Method := def0 (fun self => load_attr self "_name").

Definition get_quantity : Method :=
  def0 (fun self => load_attr self "_quantity").

Definition get_unit : Method := def0 (fun self => load_attr self "_unit").

Definition get_value_type : Method :=
  def0 (fun self => load_attr self "_value_type").

Definition get_n_dimensions : Method :=
  def0 (fun self => load_attr self "_n_dimensions").

Definition get_size : Method := def0 (fun self => load_attr self "_size").

Definition set_size : Method :=
  def1 (fun self size => store_attr self "_size" size).

(** The class body.  [def add_value(self, dimension, value):] is the
    last line of the class and no block follows it. *)
Definition body : ClassBody :=
  [ ("__init__", Some __init__);
    ("get_name", Some get_name);
    ("get_quantity", Some get_quantity);
    ("get_unit", Some get_unit);
    ("get_value_type", Some get_value_type);
    ("get_n_dimensions", Some get_n_dimensions);
    ("get_size", Some get_size);
    ("set_size", Some set_size);
    ("add_value", None) ].

(** [Signal(name, description, quantity, unit, value_type,
    n_dimensions)] *)
Definition new (name description quantity unit value_type n_dimensions : PyVal)
  : res (gmap string PyVal) :=
  construct body [name; description; quantity; unit; value_type; n_dimensions].

(** The two statements after the class:
    [s = Signal("lat", "test", "test", "m", float, 1)] and
    [print(s.get_name())].  The result lists the values printed, one
    line each. *)
Definition demo : res (list PyVal) :=
  float_ ← load_name globals "float";
  s ← new (PyStr "lat") (PyStr "test") (PyStr "test") (PyStr "m") float_ (PyInt 1);
  '(name, s) ← call body s "get_name" [];
  mret [name].

(** Running Signal.py (as a script or by import): the file is compiled
    as a whole before its first statement runs.  The result is what
    was printed and the exception that ended the run, if any. *)
Definition run_module : list PyVal * option PyExn :=
  match compile body with
  | Raise e => ([], Some e)
  | Ret _ =>
      match demo with
      | Raise e => ([], Some e)
      | Ret out => (out, None)
      end
  end.

End Signal.

Module ValueTypeLookup.

(** [member.value.get_name()] *)
Definition item_name (member : ValueType.t) : res PyVal :=
  item ← ValueType.value member;
  '(name, _) ← call ValueTypeItem.body item "get_name" [];
  mret name.

(** [member.value.get_value_type()] *)
Definition item_type (member : ValueType.t) : res PyVal :=
  item ← ValueType.value member;
  '(value_type, _) ← call ValueTypeItem.body item "get_value_type" [];
  mret value_type.



End ValueTypeLookup.

(** The value a call returned, without the instance. *)
Definition returned (r : res (PyVal * gmap string PyVal)) : res PyVal :=
  '(v, _) ← r; mret v.

(** A caller that makes the given method calls on a Signal one after
    the other, and after a call that raised carries on with the
    instance as it was before that call: every method but the
    constructor raises, if it does, before it stores anything.  There
    is no instance to carry on with once a call has left the model or
    the constructor, run again, has raised half way. *)
Fixpoint call_seq (self : gmap string PyVal) (calls : list (string * list PyVal))
  : option (gmap string PyVal) :=
  match calls with
  | [] => Some self
  | (m, args) :: rest =>
      match call Signal.body self m args with
      | Ret (_, self') => call_seq self' rest
      | Raise (Unmodelled _) => None
      | Raise _ => if String.eqb m "__init__" then None else call_seq self rest
      end
  end.

(** The argument of the last [set_size(v)] among the calls, if there
    is one; a [set_size] with another number of arguments raises and
    sets nothing. *)
Fixpoint last_set_size (calls : list (string * list PyVal)) : option PyVal :=
  match calls with
  | [] => None
  | (m, args) :: rest =>
      match last_set_size rest with
      | Some v => Some v
      | None =>
          if String.eqb m "set_size" then
            match args with
            | [v] => Some v
            | _ => None
            end
          else None
      end
  end.

(** The attribute names [Signal.__init__] stores. *)
Definition Signal_attributes : gset string :=
  list_to_set ["_name"; "_description"; "_quantity"; "_unit"; "_value_type";
               "_n_dimensions"; "_size"].

(** The literals of the [ValueType] class body, member by member. *)
Definition member_name (member : ValueType.t) : string :=
  match member with
  | ValueType.FLOAT => "float"
  | ValueType.INTEGER => "integer"
  | ValueType.STRING => "string"
  | ValueType.BOOLEAN => "boolean"
  | ValueType.DATETIME => "datetime"
  end.

Definition member_kind (member : ValueType.t) : TypeRef :=
  match member with
  | ValueType.FLOAT => ty_float
  | ValueType.INTEGER => ty_int
  | ValueType.STRING => ty_str
  | ValueType.BOOLEAN => ty_bool
  | ValueType.DATETIME => ty_date
  end.

(** Whether one pass of the loop of [get] returns [member] for [value]. *)
Definition selects (value : PyVal) (member : ValueType.t) : bool :=
  match value with
  | PyStr s => String.eqb (member_name member) s
  | PyType t => TypeRef_eqb (member_kind member) t
  | _ => false
  end.

(** An object that answers [True] to every [==], and one whose [__eq__]
    raises. *)
Definition mock_ANY : PyVal := PyObject "unittest.mock.ANY" (eq_answers true).

Definition eq_boom : PyVal := PyObject "Boom" (eq_raises (UserException "boom")).

(** * Properties *)

(** ** Attribute dictionaries *)

Lemma load_store_eq (self : gmap string PyVal) a v :
  load_attr (store_attr self a v) a = Ret v.
Proof. unfold load_attr, store_attr. by rewrite lookup_insert_eq. Qed.

Lemma load_store_ne (self : gmap string PyVal) a b v :
  a ≠ b -> load_attr (store_attr self a v) b = load_attr self b.
Proof. intros Hne. unfold load_attr, store_attr. by rewrite lookup_insert_ne. Qed.

(** ** Names *)

Lemma Signal_load_float : load_name Signal.globals "float" = Ret (PyType ty_float).
Proof. reflexivity. Qed.

Lemma Signal_load_int : load_name Signal.globals "int" = Ret (PyType ty_int).
Proof. reflexivity. Qed.

Lemma Signal_load_datetime :
  load_name Signal.globals "datetime" = Raise (NameError "datetime").
Proof. reflexivity. Qed.

Lemma ValueType_load_datetime :
  load_name ValueType.globals "datetime" = Ret (PyModule "datetime").
Proof. reflexivity. Qed.

(** ** Equality on values *)

Lemma TypeRef_eqb_eq a b : TypeRef_eqb a b = true <-> a = b.
Proof.
  destruct a, b; simpl; try (split; (reflexivity || discriminate)).
  rewrite String.eqb_eq. split; congruence.
Qed.

Lemma builtin_eq_type t v : builtin_eq (PyType t) v = true <-> v = PyType t.
Proof.
  destruct v; simpl; try (split; discriminate).
  rewrite TypeRef_eqb_eq. split; congruence.
Qed.

Lemma py_eq_builtin a b :
  custom_eq a = None -> custom_eq b = None -> py_eq a b = Ret (builtin_eq a b).
Proof. intros Ha Hb. unfold py_eq. rewrite Ha, Hb. reflexivity. Qed.

Lemma same_object_builtin a b : custom_eq b = None -> same_object a b = false.
Proof. destruct a, b; try reflexivity. discriminate. Qed.

(** [value in (float, int)] for a value with the built-in equality. *)
Lemma py_in_numeric_builtin v :
  custom_eq v = None ->
  py_in v [PyType ty_float; PyType ty_int]
  = Ret (builtin_eq (PyType ty_float) v || builtin_eq (PyType ty_int) v).
Proof.
  intros Hv. cbn [py_in]. rewrite !(same_object_builtin _ _ Hv).
  rewrite (py_eq_builtin (PyType ty_float) v eq_refl Hv).
  rewrite (py_eq_builtin (PyType ty_int) v eq_refl Hv). cbn [mbind res_bind].
  destruct (builtin_eq (PyType ty_float) v); [reflexivity |].
  destruct (builtin_eq (PyType ty_int) v); reflexivity.
Qed.

Lemma py_in_numeric_builtin_false v :
  custom_eq v = None -> v <> PyType ty_float -> v <> PyType ty_int ->
  py_in v [PyType ty_float; PyType ty_int] = Ret false.
Proof.
  intros Hv Hf Hi. rewrite (py_in_numeric_builtin _ Hv). f_equal.
  apply orb_false_iff. split; apply not_true_is_false; rewrite builtin_eq_type;
    assumption.
Qed.

(** ** Signal construction *)

Lemma Signal_new_unfold name description quantity unit value_type n_dimensions :
  Signal.new name description quantity unit value_type n_dimensions =
  '(_, self) ← Signal.__init__ ∅
     [name; description; quantity; unit; value_type; n_dimensions];
  mret self.
Proof. reflexivity. Qed.

Lemma Signal_init_numeric self name description quantity unit value_type n_dimensions :
  py_in value_type [PyType ty_float; PyType ty_int] = Ret true ->
  Signal.__init__ self
    [name; description; quantity; unit; value_type; n_dimensions] =
  Ret (PyNone,
       store_attr (store_attr (store_attr (store_attr (store_attr (store_attr
         (store_attr self "_name" name) "_description" description)
         "_quantity" quantity) "_unit" unit) "_value_type" value_type)
         "_n_dimensions" n_dimensions) "_size" (PyInt 8)).
Proof.
  intros Hin. unfold Signal.__init__.
  rewrite Signal_load_float, Signal_load_int. cbn [mbind res_bind].
  rewrite Hin. reflexivity.
Qed.

Lemma Signal_new_numeric name description quantity unit value_type n_dimensions :
  py_in value_type [PyType ty_float; PyType ty_int] = Ret true ->
  Signal.new name description quantity unit value_type n_dimensions =
  Ret (store_attr (store_attr (store_attr (store_attr (store_attr (store_attr
         (store_attr ∅ "_name" name) "_description" description)
         "_quantity" quantity) "_unit" unit) "_value_type" value_type)
         "_n_dimensions" n_dimensions) "_size" (PyInt 8)).
Proof.
  intros Hin. rewrite Signal_new_unfold, (Signal_init_numeric _ _ _ _ _ _ _ Hin).
  reflexivity.
Qed.

Lemma Signal_init_other self name description quantity unit value_type n_dimensions :
  py_in value_type [PyType ty_float; PyType ty_int] = Ret false ->
  Signal.__init__ self
    [name; description; quantity; unit; value_type; n_dimensions] =
  Raise (NameError "datetime").
Proof.
  intros Hin. unfold Signal.__init__.
  rewrite Signal_load_float, Signal_load_int. cbn [mbind res_bind].
  rewrite Hin. cbn [mbind res_bind]. rewrite Signal_load_datetime. reflexivity.
Qed.

Lemma Signal_new_other name description quantity unit value_type n_dimensions :
  py_in value_type [PyType ty_float; PyType ty_int] = Ret false ->
  Signal.new name description quantity unit value_type n_dimensions =
  Raise (NameError "datetime").
Proof.
  intros Hin. rewrite Signal_new_unfold, (Signal_init_other _ _ _ _ _ _ _ Hin).
  reflexivity.
Qed.

Lemma Signal_init_eq_raises self name description quantity unit value_type n_dimensions e :
  py_in value_type [PyType ty_float; PyType ty_int] = Raise e ->
  Signal.__init__ self
    [name; description; quantity; unit; value_type; n_dimensions] = Raise e.
Proof.
  intros Hin. unfold Signal.__init__.
  rewrite Signal_load_float, Signal_load_int. cbn [mbind res_bind].
  rewrite Hin. reflexivity.
Qed.

Lemma Signal_new_eq_raises name description quantity unit value_type n_dimensions e :
  py_in value_type [PyType ty_float; PyType ty_int] = Raise e ->
  Signal.new name description quantity unit value_type n_dimensions = Raise e.
Proof.
  intros Hin. rewrite Signal_new_unfold, (Signal_init_eq_raises _ _ _ _ _ _ _ _ Hin).
  reflexivity.
Qed.

(** A construction that completes went through the first branch. *)
Lemma Signal_new_completes name description quantity unit value_type n_dimensions s :
  Signal.new name description quantity unit value_type n_dimensions = Ret s ->
  py_in value_type [PyType ty_float; PyType ty_int] = Ret true.
Proof.
  intros Hnew.
  destruct (py_in value_type [PyType ty_float; PyType ty_int]) as [[|] | e] eqn:Hin.
  - reflexivity.
  - rewrite (Signal_new_other _ _ _ _ _ _ Hin) in Hnew. discriminate.
  - rewrite (Signal_new_eq_raises _ _ _ _ _ _ _ Hin) in Hnew. discriminate.
Qed.

(** ** Method calls on a Signal *)

Lemma Signal_call_get_size self :
  call Signal.body self "get_size" [] =
  (v ← load_attr self "_size"; mret (v, self)).
Proof. reflexivity. Qed.

Lemma Signal_call_set_size self v :
  call Signal.body self "set_size" [v] = Ret (PyNone, store_attr self "_size" v).
Proof. reflexivity. Qed.

Lemma Signal_call_get_name self :
  call Signal.body self "get_name" [] =
  (v ← load_attr self "_name"; mret (v, self)).
Proof. reflexivity. Qed.

Lemma Signal_call_get_quantity self :
  call Signal.body self "get_quantity" [] =
  (v ← load_attr self "_quantity"; mret (v, self)).
Proof. reflexivity. Qed.

Lemma Signal_call_get_unit self :
  call Signal.body self "get_unit" [] =
  (v ← load_attr self "_unit"; mret (v, self)).
Proof. reflexivity. Qed.

Lemma Signal_call_get_value_type self :
  call Signal.body self "get_value_type" [] =
  (v ← load_attr self "_value_type"; mret (v, self)).
Proof. reflexivity. Qed.

Lemma Signal_call_get_n_dimensions self :
  call Signal.body self "get_n_dimensions" [] =
  (v ← load_attr self "_n_dimensions"; mret (v, self)).
Proof. reflexivity. Qed.

Ltac load_stored :=
  repeat (rewrite load_store_eq || rewrite load_store_ne by discriminate).


(** A list of calls, given in full, whose method names meet a condition
    made of [defined_in] and inequalities. *)
Ltac solve_calls :=
  repeat (apply List.Forall_cons;
          [ repeat split; try discriminate;
            unfold defined_in; simpl;
            repeat (first [left; reflexivity | right])
          | ]);
  apply List.Forall_nil.

(** Case analysis on a method name that the class body defines. *)
Ltac defined_cases H :=
  unfold defined_in in H; simpl in H;
  repeat (destruct H as [<- | H]); [.. | destruct H].

(** What a constructed Signal answers, attribute by attribute. *)
Lemma Signal_new_attributes name description quantity unit value_type n_dimensions s :
  Signal.new name description quantity unit value_type n_dimensions = Ret s ->
  load_attr s "_name" = Ret name
  /\ load_attr s "_description" = Ret description
  /\ load_attr s "_quantity" = Ret quantity
  /\ load_attr s "_unit" = Ret unit
  /\ load_attr s "_value_type" = Ret value_type
  /\ load_attr s "_n_dimensions" = Ret n_dimensions
  /\ load_attr s "_size" = Ret (PyInt 8).
Proof.
  intros Hnew. pose proof (Signal_new_completes _ _ _ _ _ _ _ Hnew) as Hin.
  rewrite (Signal_new_numeric _ _ _ _ _ _ Hin) in Hnew.
  injection Hnew as <-. repeat split; load_stored; reflexivity.
Qed.

Lemma Signal_init_returns_None self args v self' :
  Signal.__init__ self args = Ret (v, self') -> v = PyNone.
Proof.
  destruct args as [|a1 [|a2 [|a3 [|a4 [|a5 [|a6 [|a7 rest]]]]]]];
    try discriminate.
  destruct (py_in a5 [PyType ty_float; PyType ty_int]) as [[|] | e] eqn:Hin.
  - rewrite (Signal_init_numeric _ _ _ _ _ _ _ Hin). intros [= <- _]. reflexivity.
  - rewrite (Signal_init_other _ _ _ _ _ _ _ Hin). discriminate.
  - rewrite (Signal_init_eq_raises _ _ _ _ _ _ _ _ Hin). discriminate.
Qed.

Lemma def0_readonly f self args v self' :
  def0 f self args = Ret (v, self') -> self' = self.
Proof.
  unfold def0. destruct args; [| discriminate].
  destruct (f self); simpl; [| discriminate]. intros [= _ <-]. reflexivity.
Qed.

(** Apart from the constructor and [set_size], a call of a method of
    the class that returns leaves the instance as it was. *)
Lemma Signal_call_readonly self m args v self' :
  defined_in Signal.body m -> m <> "set_size" -> m <> "__init__" ->
  call Signal.body self m args = Ret (v, self') -> self' = self.
Proof.
  intros Hdef Hset Hinit. defined_cases Hdef; try congruence;
    try (apply def0_readonly); discriminate.
Qed.

(** One step of [call_seq], for a method of the class that is not the
    constructor. *)
Lemma call_seq_cons self m args rest :
  defined_in Signal.body m -> m <> "__init__" ->
  call_seq self ((m, args) :: rest) =
  call_seq
    (match (if String.eqb m "set_size" then
              match args with [v] => Some v | _ => None end
            else None) with
     | Some v => store_attr self "_size" v
     | None => self
     end) rest.
Proof.
  intros Hdef Hinit. defined_cases Hdef; try congruence; cbn [call_seq];
    unfold call; simpl find_def;
    try (unfold Signal.get_name, Signal.get_quantity, Signal.get_unit,
           Signal.get_value_type, Signal.get_n_dimensions, Signal.get_size,
           def0, load_attr;
         destruct args as [| a args]; [| reflexivity];
         match goal with
         | |- context [self !! ?a] => destruct (self !! a)
         end; reflexivity).
  - destruct args as [| v [| w args]]; reflexivity.
  - reflexivity.
Qed.

Lemma call_seq_readonly self calls :
  Forall (fun c : string * list PyVal =>
            defined_in Signal.body c.1 /\ c.1 <> "set_size" /\ c.1 <> "__init__")
         calls ->
  call_seq self calls = Some self.
Proof.
  induction 1 as [| [m args] rest (Hdef & Hset & Hinit) _ IH]; [reflexivity |].
  simpl in Hdef, Hset, Hinit. rewrite (call_seq_cons _ _ _ _ Hdef Hinit).
  destruct (String.eqb_spec m "set_size"); [contradiction | exact IH].
Qed.

Lemma Signal_new_get_size name description quantity unit value_type n_dimensions s :
  Signal.new name description quantity unit value_type n_dimensions = Ret s ->
  call Signal.body s "get_size" [] = Ret (PyInt 8, s).
Proof.
  intros Hnew. apply Signal_new_attributes in Hnew as (_ & _ & _ & _ & _ & _ & Hsize).
  rewrite Signal_call_get_size, Hsize. reflexivity.
Qed.

(** ** Signal: construction and the size rule *)

Example Signal_new_int_size :
  (s ← Signal.new (PyStr "depth") (PyStr "") (PyStr "length") (PyStr "m")
         (PyType ty_int) (PyInt 1);
   returned (call Signal.body s "get_size" [])) = Ret (PyInt 8).
Proof. reflexivity. Qed.

Example Signal_new_bool_raises :
  Signal.new (PyStr "flag") (PyStr "") (PyStr "") (PyStr "")
    (PyType ty_bool) (PyInt 1) = Raise (NameError "datetime").
Proof. reflexivity. Qed.

(** C1: the size rule (float or int 8, date 30, bool 1, anything else 0,
    read back by get_size).  On the code only its first line is reached:
    a Signal built with float or with int has size 8 and get_size
    returns 8, while building one with date, bool or str raises
    NameError for the name datetime instead of giving 30, 1 or 0. *)
Theorem Signal_size_rule_stops_at_datetime name description quantity unit n_dimensions :
  Signal.new name description quantity unit (PyType ty_date) n_dimensions
    = Raise (NameError "datetime")
  /\ Signal.new name description quantity unit (PyType ty_bool) n_dimensions
    = Raise (NameError "datetime")
  /\ Signal.new name description quantity unit (PyType ty_str) n_dimensions
    = Raise (NameError "datetime")
  /\ (exists s,
        Signal.new name description quantity unit (PyType ty_float) n_dimensions = Ret s
        /\ call Signal.body s "get_size" [] = Ret (PyInt 8, s))
  /\ (exists s,
        Signal.new name description quantity unit (PyType ty_int) n_dimensions = Ret s
        /\ call Signal.body s "get_size" [] = Ret (PyInt 8, s)).
Proof.
  repeat split; try (apply Signal_new_other; reflexivity).
  - eexists. split; [apply Signal_new_numeric; reflexivity |].
    rewrite Signal_call_get_size. load_stored. reflexivity.
  - eexists. split; [apply Signal_new_numeric; reflexivity |].
    rewrite Signal_call_get_size. load_stored. reflexivity.
Qed.

(** C2: construction is claimed never to fail, an unrecognized value
    type giving size 0.  On the code a value type that is some other
    class, or no class at all, makes the constructor raise NameError. *)
Theorem Signal_new_unrecognized_raises name description quantity unit n_dimensions qualname :
  Signal.new name description quantity unit (PyType (ty_other qualname)) n_dimensions
    = Raise (NameError "datetime")
  /\ Signal.new name description quantity unit PyNone n_dimensions
    = Raise (NameError "datetime")
  /\ Signal.new name description quantity unit (PyStr "float") n_dimensions
    = Raise (NameError "datetime").
Proof. repeat split; apply Signal_new_other; reflexivity. Qed.

(** C8, as the claim states it, fails: a value type that is neither
    float nor int but answers True when compared with float completes
    the construction with size 8, and one whose __eq__ raises makes
    the constructor raise that exception, not NameError. *)
Lemma Signal_init_NameError_counterexample :
  mock_ANY <> PyType ty_float /\ mock_ANY <> PyType ty_int
  /\ (exists s,
        Signal.new (PyStr "lat") (PyStr "test") (PyStr "test") (PyStr "m")
          mock_ANY (PyInt 1) = Ret s
        /\ call Signal.body s "get_size" [] = Ret (PyInt 8, s))
  /\ eq_boom <> PyType ty_float /\ eq_boom <> PyType ty_int
  /\ Signal.new (PyStr "lat") (PyStr "test") (PyStr "test") (PyStr "m")
       eq_boom (PyInt 1) = Raise (UserException "boom").
Proof.
  repeat split; try discriminate.
  eexists. split; [apply Signal_new_numeric; reflexivity |].
  rewrite Signal_call_get_size. load_stored. reflexivity.
Qed.

(** C8, amended: a construction whose value_type has the built-in
    equality and is neither float nor int raises NameError for the
    name datetime, which Signal.py never binds.  In general the
    construction completes exactly when [value_type in (float, int)]
    is true, and then the size is 8; it raises that NameError when the
    test is false, and whatever the test raises when it raises. *)
Theorem Signal_init_NameError_unless_equal_numeric
    name description quantity unit value_type n_dimensions :
  (custom_eq value_type = None ->
   value_type <> PyType ty_float -> value_type <> PyType ty_int ->
     (forall self,
        Signal.__init__ self
          [name; description; quantity; unit; value_type; n_dimensions]
        = Raise (NameError "datetime"))
     /\ Signal.new name description quantity unit value_type n_dimensions
        = Raise (NameError "datetime"))
  /\ (value_type = PyType ty_float \/ value_type = PyType ty_int ->
        exists s,
          Signal.new name description quantity unit value_type n_dimensions = Ret s
          /\ call Signal.body s "get_size" [] = Ret (PyInt 8, s))
  /\ (forall s,
        Signal.new name description quantity unit value_type n_dimensions = Ret s ->
        py_in value_type [PyType ty_float; PyType ty_int] = Ret true
        /\ call Signal.body s "get_size" [] = Ret (PyInt 8, s))
  /\ (py_in value_type [PyType ty_float; PyType ty_int] = Ret true ->
        exists s,
          Signal.new name description quantity unit value_type n_dimensions = Ret s)
  /\ (py_in value_type [PyType ty_float; PyType ty_int] = Ret false ->
        Signal.new name description quantity unit value_type n_dimensions
        = Raise (NameError "datetime"))
  /\ (forall e,
        py_in value_type [PyType ty_float; PyType ty_int] = Raise e ->
        Signal.new name description quantity unit value_type n_dimensions = Raise e).
Proof.
  split; [| split; [| split; [| split; [| split]]]].
  - intros Heq Hf Hi.
    pose proof (py_in_numeric_builtin_false _ Heq Hf Hi) as Hin.
    split; [intros self; apply Signal_init_other, Hin |].
    apply Signal_new_other, Hin.
  - intros Hnum.
    assert (Hin : py_in value_type [PyType ty_float; PyType ty_int] = Ret true)
      by (destruct Hnum as [-> | ->]; reflexivity).
    eexists. split; [apply Signal_new_numeric, Hin |].
    rewrite Signal_call_get_size. load_stored. reflexivity.
  - intros s Hnew. split; [eapply Signal_new_completes, Hnew |].
    eapply Signal_new_get_size, Hnew.
  - intros Hin. eexists. apply Signal_new_numeric, Hin.
  - apply Signal_new_other.
  - intros e. apply Signal_new_eq_raises.
Qed.

(** ** Signal: accessors *)

(** C6: a read accessor for each of the seven attributes.  The class
    defines six: the Signal of the demonstration, given a description
    of its own, answers get_name, get_quantity, get_unit,
    get_value_type, get_n_dimensions and get_size with the constructed
    values, holds its description, and has no get_description; no
    method the class defines returns the description. *)
Theorem Signal_description_has_no_accessor :
  exists s,
    Signal.new (PyStr "lat") (PyStr "a description") (PyStr "test") (PyStr "m")
      (PyType ty_float) (PyInt 1) = Ret s
    /\ call Signal.body s "get_name" [] = Ret (PyStr "lat", s)
    /\ call Signal.body s "get_quantity" [] = Ret (PyStr "test", s)
    /\ call Signal.body s "get_unit" [] = Ret (PyStr "m", s)
    /\ call Signal.body s "get_value_type" [] = Ret (PyType ty_float, s)
    /\ call Signal.body s "get_n_dimensions" [] = Ret (PyInt 1, s)
    /\ call Signal.body s "get_size" [] = Ret (PyInt 8, s)
    /\ load_attr s "_description" = Ret (PyStr "a description")
    /\ call Signal.body s "get_description" []
       = Raise (AttributeError "get_description")
    /\ (forall m args v s',
          defined_in Signal.body m ->
          call Signal.body s m args = Ret (v, s') -> v <> PyStr "a description").
Proof.
  eexists. split; [apply Signal_new_numeric; reflexivity |].
  match goal with |- call _ ?s _ _ = _ /\ _ => set (s0 := s) end.
  assert (Hnew : Signal.new (PyStr "lat") (PyStr "a description") (PyStr "test")
                   (PyStr "m") (PyType ty_float) (PyInt 1) = Ret s0)
    by (apply Signal_new_numeric; reflexivity).
  destruct (Signal_new_attributes _ _ _ _ _ _ _ Hnew)
    as (Hn & Hd & Hq & Hu & Ht & Hnd & Hsz).
  assert (Hnone : call Signal.body s0 "get_description" []
                  = Raise (AttributeError "get_description")) by reflexivity.
  clearbody s0.
  rewrite Signal_call_get_name, Signal_call_get_quantity, Signal_call_get_unit,
    Signal_call_get_value_type, Signal_call_get_n_dimensions, Signal_call_get_size.
  rewrite Hn, Hq, Hu, Ht, Hnd, Hsz, Hd, Hnone.
  repeat (split; [reflexivity |]).
  intros m args v s' Hdef. defined_cases Hdef.
  - intros Hcall. apply Signal_init_returns_None in Hcall. congruence.
  - unfold call; simpl find_def. unfold Signal.get_name, def0.
    destruct args; [| discriminate]. rewrite Hn. intros [= <- _]. discriminate.
  - unfold call; simpl find_def. unfold Signal.get_quantity, def0.
    destruct args; [| discriminate]. rewrite Hq. intros [= <- _]. discriminate.
  - unfold call; simpl find_def. unfold Signal.get_unit, def0.
    destruct args; [| discriminate]. rewrite Hu. intros [= <- _]. discriminate.
  - unfold call; simpl find_def. unfold Signal.get_value_type, def0.
    destruct args; [| discriminate]. rewrite Ht. intros [= <- _]. discriminate.
  - unfold call; simpl find_def. unfold Signal.get_n_dimensions, def0.
    destruct args; [| discriminate]. rewrite Hnd. intros [= <- _]. discriminate.
  - unfold call; simpl find_def. unfold Signal.get_size, def0.
    destruct args; [| discriminate]. rewrite Hsz. intros [= <- _]. discriminate.
  - unfold call; simpl find_def. unfold Signal.set_size, def1.
    destruct args as [| x [| y rest]]; try discriminate.
    intros [= <- _]. discriminate.
  - discriminate.
Qed.

(** ** Signal: set_size *)

(** C7: after set_size(v), get_size returns v, and every attribute
    other than the size, with the accessor that reads it, is as it was
    before the call. *)
Theorem Signal_set_size_frame self v :
  exists self',
    call Signal.body self "set_size" [v] = Ret (PyNone, self')
    /\ call Signal.body self' "get_size" [] = Ret (v, self')
    /\ (forall a, a <> "_size" -> load_attr self' a = load_attr self a)
    /\ (forall m,
          In m ["get_name"; "get_quantity"; "get_unit"; "get_value_type";
                "get_n_dimensions"] ->
          returned (call Signal.body self' m []) = returned (call Signal.body self m [])).
Proof.
  exists (store_attr self "_size" v).
  split; [apply Signal_call_set_size |].
  split; [rewrite Signal_call_get_size, load_store_eq; reflexivity |].
  split; [intros a Ha; apply load_store_ne; congruence |].
  intros m Hm. simpl in Hm.
  destruct Hm as [<- | [<- | [<- | [<- | [<- | []]]]]].
  - rewrite !Signal_call_get_name, load_store_ne by discriminate.
    destruct (load_attr self "_name"); reflexivity.
  - rewrite !Signal_call_get_quantity, load_store_ne by discriminate.
    destruct (load_attr self "_quantity"); reflexivity.
  - rewrite !Signal_call_get_unit, load_store_ne by discriminate.
    destruct (load_attr self "_unit"); reflexivity.
  - rewrite !Signal_call_get_value_type, load_store_ne by discriminate.
    destruct (load_attr self "_value_type"); reflexivity.
  - rewrite !Signal_call_get_n_dimensions, load_store_ne by discriminate.
    destruct (load_attr self "_n_dimensions"); reflexivity.
Qed.

(** C10: set_size takes any value as it is, and the stored size stays:
    after set_size(v), whatever calls of the methods the class defines
    follow that are not set_size and do not run the constructor again,
    the instance is the same and get_size returns exactly v. *)
Theorem Signal_set_size_unvalidated_persists self v calls :
  Forall (fun c : string * list PyVal =>
            defined_in Signal.body c.1 /\ c.1 <> "set_size" /\ c.1 <> "__init__")
         calls ->
  exists self',
    call Signal.body self "set_size" [v] = Ret (PyNone, self')
    /\ call_seq self' calls = Some self'
    /\ call Signal.body self' "get_size" [] = Ret (v, self').
Proof.
  intros Hcalls. exists (store_attr self "_size" v).
  split; [apply Signal_call_set_size |].
  split; [apply call_seq_readonly, Hcalls |].
  rewrite Signal_call_get_size, load_store_eq. reflexivity.
Qed.

Lemma Signal_set_size_unvalidated_persists_witness :
  exists s,
    Signal.new (PyStr "lat") (PyStr "test") (PyStr "test") (PyStr "m")
      (PyType ty_int) (PyInt 1) = Ret s
    /\ exists s',
         call Signal.body s "set_size" [PyStr "minus five"] = Ret (PyNone, s')
         /\ call_seq s' [("get_value_type", []); ("get_size", []);
                          ("get_unit", [PyInt 0]); ("get_name", [])] = Some s'
         /\ call Signal.body s' "get_size" [] = Ret (PyStr "minus five", s').
Proof.
  eexists. split; [apply Signal_new_numeric; reflexivity |].
  apply (Signal_set_size_unvalidated_persists _ (PyStr "minus five")
           [("get_value_type", []); ("get_size", []);
            ("get_unit", [PyInt 0]); ("get_name", [])]).
  solve_calls.
Defined.

(** ** Signal.py as a file *)

Example ValueTypeItem_compiles : compile ValueTypeItem.body = Ret tt.
Proof. reflexivity. Qed.

(** C3: building Signal("lat", "test", "test", "m", float, 1) and
    reading its name gives "lat", which is what the two closing
    statements would print; but the file does not compile, since
    add_value has no body, so running it prints nothing and ends in
    IndentationError. *)
Theorem Signal_py_demo_not_reached :
  Signal.demo = Ret [PyStr "lat"]
  /\ Signal.run_module
     = ([], Some (IndentationError
                    "expected an indented block after function definition")).
Proof. split; reflexivity. Qed.


(** ** ValueTypeItem *)

Lemma ValueTypeItem_call_readonly self m args v self' :
  In m ["get_name"; "get_value_type"; "__str__"] ->
  call ValueTypeItem.body self m args = Ret (v, self') -> self' = self.
Proof.
  intros Hm. simpl in Hm. destruct Hm as [<- | [<- | [<- | []]]];
    apply def0_readonly.
Qed.

(** C9: a ValueTypeItem built from a name and a primitive type is
    always built, get_name returns that name, get_value_type returns
    that type, str() of it is the name, and none of get_name,
    get_value_type and __str__, the operations the class gives it,
    changes it. *)
Theorem ValueTypeItem_accessors (name : string) (value_type : PyVal) :
  exists item,
    construct ValueTypeItem.body [PyStr name; value_type] = Ret item
    /\ call ValueTypeItem.body item "get_name" [] = Ret (PyStr name, item)
    /\ call ValueTypeItem.body item "get_value_type" [] = Ret (value_type, item)
    /\ ValueTypeItem.str item = Ret (name, item)
    /\ (forall m args v item',
          In m ["get_name"; "get_value_type"; "__str__"] ->
          call ValueTypeItem.body item m args = Ret (v, item') -> item' = item).
Proof.
  exists (store_attr (store_attr ∅ "_name" (PyStr name)) "_value_type" value_type).
  split; [reflexivity |].
  assert (Hname : forall self : gmap string PyVal,
             call ValueTypeItem.body self "get_name" []
             = (v ← load_attr self "_name"; mret (v, self))) by reflexivity.
  assert (Htype : forall self : gmap string PyVal,
             call ValueTypeItem.body self "get_value_type" []
             = (v ← load_attr self "_value_type"; mret (v, self))) by reflexivity.
  assert (Hstr : forall self : gmap string PyVal,
             call ValueTypeItem.body self "__str__" []
             = (v ← load_attr self "_name"; mret (v, self))) by reflexivity.
  split; [rewrite Hname; load_stored; reflexivity |].
  split; [rewrite Htype; load_stored; reflexivity |].
  split; [unfold ValueTypeItem.str; rewrite Hstr; load_stored; reflexivity |].
  intros m args v item'. apply ValueTypeItem_call_readonly.
Qed.

(** ** ValueType.get *)




Example get_float_by_name : ValueType.get (PyStr "float") = Ret (Some ValueType.FLOAT).
Proof. reflexivity. Qed.

Example get_bool_by_kind : ValueType.get (PyType ty_bool) = Ret (Some ValueType.BOOLEAN).
Proof. reflexivity. Qed.

Example get_unknown_name : ValueType.get (PyStr "double") = Ret None.
Proof. reflexivity. Qed.

Example get_name_is_case_sensitive : ValueType.get (PyStr "Float") = Ret None.
Proof. reflexivity. Qed.

Example get_datetime_datetime :
  ValueType.get (PyType (ty_other "datetime.datetime")) = Ret None.
Proof. reflexivity. Qed.

Example get_of_an_integer : ValueType.get (PyInt 1) = Ret None.
Proof. reflexivity. Qed.

(** C4: for each of the five members, get of the member's item name
    and get of the member's item primitive type both return that
    member. *)
Theorem ValueType_get_roundtrip (member : ValueType.t) :
  (name ← ValueTypeLookup.item_name member; ValueType.get name) = Ret (Some member)
  /\ (kind ← ValueTypeLookup.item_type member; ValueType.get kind) = Ret (Some member).
Proof. destruct member; split; reflexivity. Qed.




(** * Further properties *)

(** ** Signal: what the accessors read back *)

(** X1: whatever the six arguments are, a Signal that was built answers
    get_name, get_quantity, get_unit, get_value_type and
    get_n_dimensions with the arguments themselves, unchanged and
    unchecked, and leaves the instance as it is. *)
Theorem Signal_accessors_return_arguments
    name description quantity unit value_type n_dimensions s :
  Signal.new name description quantity unit value_type n_dimensions = Ret s ->
  call Signal.body s "get_name" [] = Ret (name, s)
  /\ call Signal.body s "get_quantity" [] = Ret (quantity, s)
  /\ call Signal.body s "get_unit" [] = Ret (unit, s)
  /\ call Signal.body s "get_value_type" [] = Ret (value_type, s)
  /\ call Signal.body s "get_n_dimensions" [] = Ret (n_dimensions, s).
Proof.
  intros Hnew.
  destruct (Signal_new_attributes _ _ _ _ _ _ _ Hnew)
    as (Hn & _ & Hq & Hu & Ht & Hnd & _).
  rewrite Signal_call_get_name, Signal_call_get_quantity, Signal_call_get_unit,
    Signal_call_get_value_type, Signal_call_get_n_dimensions.
  rewrite Hn, Hq, Hu, Ht, Hnd. repeat split; reflexivity.
Qed.

Lemma Signal_accessors_return_arguments_witness :
  exists s,
    Signal.new PyNone (PyInt 7) (PyBool true) (PyStr "") (PyType ty_int) (PyInt (-3))
    = Ret s
    /\ call Signal.body s "get_name" [] = Ret (PyNone, s)
    /\ call Signal.body s "get_quantity" [] = Ret (PyBool true, s)
    /\ call Signal.body s "get_unit" [] = Ret (PyStr "", s)
    /\ call Signal.body s "get_value_type" [] = Ret (PyType ty_int, s)
    /\ call Signal.body s "get_n_dimensions" [] = Ret (PyInt (-3), s).
Proof.
  eexists. split; [apply Signal_new_numeric; reflexivity |].
  apply (Signal_accessors_return_arguments PyNone (PyInt 7) (PyBool true)
           (PyStr "") (PyType ty_int) (PyInt (-3))).
  apply Signal_new_numeric. reflexivity.
Defined.

(** ** Signal: sequences of calls *)

Lemma store_attr_twice (self : gmap string PyVal) a v w :
  store_attr (store_attr self a v) a w = store_attr self a w.
Proof. unfold store_attr. apply insert_insert_eq. Qed.

Lemma call_seq_state self calls :
  Forall (fun c : string * list PyVal =>
            defined_in Signal.body c.1 /\ c.1 <> "__init__") calls ->
  call_seq self calls =
  Some match last_set_size calls with
       | Some v => store_attr self "_size" v
       | None => self
       end.
Proof.
  intros Hcalls. revert self.
  induction Hcalls as [| [m args] rest [Hdef Hinit] _ IH]; intros self;
    [reflexivity |].
  simpl in Hdef, Hinit. rewrite (call_seq_cons _ _ _ _ Hdef Hinit), IH.
  cbn [last_set_size]. destruct (last_set_size rest) as [w |].
  - destruct (if String.eqb m "set_size" then _ else _);
      [rewrite store_attr_twice |]; reflexivity.
  - reflexivity.
Qed.

(** X2: over any run of calls of the methods the class defines that
    does not run the constructor again, calls that raise included, the
    last set_size(v) wins: get_size then returns that v, or what it
    returned at the start when no set_size took effect, and every
    other attribute reads as it did at the start. *)
Theorem Signal_last_set_size_wins self calls :
  Forall (fun c : string * list PyVal =>
            defined_in Signal.body c.1 /\ c.1 <> "__init__") calls ->
  exists final,
    call_seq self calls = Some final
    /\ returned (call Signal.body final "get_size" [])
       = match last_set_size calls with
         | Some v => Ret v
         | None => returned (call Signal.body self "get_size" [])
         end
    /\ (forall a, a <> "_size" -> load_attr final a = load_attr self a).
Proof.
  intros Hcalls. eexists. split; [apply call_seq_state, Hcalls |].
  destruct (last_set_size calls) as [v |].
  - split; [rewrite Signal_call_get_size, load_store_eq; reflexivity |].
    intros a Ha. apply load_store_ne. congruence.
  - split; [reflexivity | intros a _; reflexivity].
Qed.

Lemma Signal_last_set_size_wins_witness :
  exists s,
    Signal.new (PyStr "lat") (PyStr "test") (PyStr "test") (PyStr "m")
      (PyType ty_float) (PyInt 1) = Ret s
    /\ exists final,
         call_seq s [("set_size", [PyInt 4]); ("get_size", []);
                     ("set_size", [PyInt 16]); ("set_size", []);
                     ("get_unit", [PyInt 0]); ("get_name", [])] = Some final
         /\ returned (call Signal.body final "get_size" []) = Ret (PyInt 16)
         /\ (forall a, a <> "_size" -> load_attr final a = load_attr s a).
Proof.
  eexists. split; [apply Signal_new_numeric; reflexivity |].
  apply (Signal_last_set_size_wins _
           [("set_size", [PyInt 4]); ("get_size", []);
            ("set_size", [PyInt 16]); ("set_size", []);
            ("get_unit", [PyInt 0]); ("get_name", [])]).
  solve_calls.
Defined.

Lemma Signal_new_dom name description quantity unit value_type n_dimensions s :
  Signal.new name description quantity unit value_type n_dimensions = Ret s ->
  dom s = Signal_attributes.
Proof.
  intros Hnew. pose proof (Signal_new_completes _ _ _ _ _ _ _ Hnew) as Hin.
  rewrite (Signal_new_numeric _ _ _ _ _ _ Hin) in Hnew.
  injection Hnew as <-. unfold store_attr, Signal_attributes.
  rewrite !dom_insert_L, dom_empty_L. cbn [list_to_set foldr]. set_solver.
Qed.

(** X3: a Signal that was built has exactly the seven attributes the
    constructor stores, and no run of calls of the methods the class
    defines that leaves the constructor out adds one or removes one. *)
Theorem Signal_attribute_set_invariant
    name description quantity unit value_type n_dimensions s calls :
  Signal.new name description quantity unit value_type n_dimensions = Ret s ->
  Forall (fun c : string * list PyVal =>
            defined_in Signal.body c.1 /\ c.1 <> "__init__") calls ->
  dom s = Signal_attributes
  /\ exists final, call_seq s calls = Some final /\ dom final = Signal_attributes.
Proof.
  intros Hnew Hcalls. pose proof (Signal_new_dom _ _ _ _ _ _ _ Hnew) as Hdom.
  split; [exact Hdom |].
  eexists. split; [apply call_seq_state, Hcalls |].
  destruct (last_set_size calls) as [v |]; [| exact Hdom].
  unfold store_attr. rewrite dom_insert_L, Hdom.
  unfold Signal_attributes. cbn [list_to_set foldr]. set_solver.
Qed.

Lemma Signal_attribute_set_invariant_witness :
  exists s,
    Signal.new (PyStr "lat") (PyStr "test") (PyStr "test") (PyStr "m")
      (PyType ty_int) (PyInt 1) = Ret s
    /\ dom s = Signal_attributes
    /\ exists final,
         call_seq s [("set_size", [PyNone]); ("get_unit", [PyInt 1]);
                     ("set_size", [PyInt 2])] = Some final
         /\ dom final = Signal_attributes.
Proof.
  eexists. split; [apply Signal_new_numeric; reflexivity |].
  apply (Signal_attribute_set_invariant (PyStr "lat") (PyStr "test") (PyStr "test")
           (PyStr "m") (PyType ty_int) (PyInt 1) _
           [("set_size", [PyNone]); ("get_unit", [PyInt 1]);
            ("set_size", [PyInt 2])]).
  - apply Signal_new_numeric. reflexivity.
  - solve_calls.
Defined.

(** ** ValueTypeItem: a name that is not a string *)

(** X4: a ValueTypeItem takes a name that is not a string without
    complaint and get_name returns it, but str() of that item raises
    TypeError, since __str__ hands back the name as it is. *)
Theorem ValueTypeItem_str_needs_string_name (name value_type : PyVal) :
  isinstance_str name = false ->
  exists item,
    construct ValueTypeItem.body [name; value_type] = Ret item
    /\ call ValueTypeItem.body item "get_name" [] = Ret (name, item)
    /\ ValueTypeItem.str item = Raise (TypeError "__str__ returned non-string").
Proof.
  intros Hname.
  exists (store_attr (store_attr ∅ "_name" name) "_value_type" value_type).
  split; [reflexivity |].
  assert (Hget : forall self : gmap string PyVal,
             call ValueTypeItem.body self "get_name" []
             = (v ← load_attr self "_name"; mret (v, self))) by reflexivity.
  assert (Hstr : forall self : gmap string PyVal,
             call ValueTypeItem.body self "__str__" []
             = (v ← load_attr self "_name"; mret (v, self))) by reflexivity.
  split; [rewrite Hget; load_stored; reflexivity |].
  unfold ValueTypeItem.str. rewrite Hstr. load_stored.
  destruct name; try reflexivity. discriminate.
Qed.

Lemma ValueTypeItem_str_needs_string_name_witness :
  exists item,
    construct ValueTypeItem.body [PyInt 3; PyType ty_int] = Ret item
    /\ call ValueTypeItem.body item "get_name" [] = Ret (PyInt 3, item)
    /\ ValueTypeItem.str item = Raise (TypeError "__str__ returned non-string").
Proof.
  apply (ValueTypeItem_str_needs_string_name (PyInt 3) (PyType ty_int)).
  reflexivity.
Defined.

(** ** ValueType members as Signal value types *)

Lemma item_type_eq member :
  ValueTypeLookup.item_type member = Ret (PyType (member_kind member)).
Proof. destruct member; reflexivity. Qed.

(** X5: of the five members, only FLOAT and INTEGER carry a primitive
    type a Signal can be built with; and for a Signal built with a
    member's primitive type, get applied to what get_value_type
    returns gives that member back. *)
Theorem Signal_of_member_kind member name description quantity unit n_dimensions :
  ((exists s,
      (kind ← ValueTypeLookup.item_type member;
       Signal.new name description quantity unit kind n_dimensions) = Ret s)
   <-> member = ValueType.FLOAT \/ member = ValueType.INTEGER)
  /\ (forall s,
        (kind ← ValueTypeLookup.item_type member;
         Signal.new name description quantity unit kind n_dimensions) = Ret s ->
        (value_type ← returned (call Signal.body s "get_value_type" []);
         ValueType.get value_type) = Ret (Some member)).
Proof.
  rewrite item_type_eq. cbn [mbind res_bind].
  split; [split |].
  - intros [s Hnew]. destruct member; try tauto;
      rewrite Signal_new_other in Hnew by reflexivity; discriminate.
  - intros [-> | ->]; eexists; apply Signal_new_numeric; reflexivity.
  - intros s Hnew.
    apply Signal_new_attributes in Hnew as (_ & _ & _ & _ & Ht & _ & _).
    rewrite Signal_call_get_value_type, Ht. destruct member; reflexivity.
Qed.

(** ** ValueType.get: the order of the members *)

Lemma get_loop_cons member rest value :
  custom_eq value = None ->
  ValueType.get_loop (member :: rest) value =
  if selects value member then Ret (Some member)
  else ValueType.get_loop rest value.
Proof.
  intros Heq.
  destruct member, value as [| b | z | s | k | n | n m]; try discriminate Heq;
    try reflexivity; destruct k; reflexivity.
Qed.

Lemma get_loop_find items value :
  custom_eq value = None ->
  ValueType.get_loop items value = Ret (find (selects value) items).
Proof.
  intros Heq. induction items as [| member rest IH]; [reflexivity |].
  rewrite (get_loop_cons _ _ _ Heq). cbn [find]. destruct (selects value member);
    [reflexivity | exact IH].
Qed.

(** No value selects two members. *)
Lemma selects_unique value a b :
  selects value a = true -> selects value b = true -> a = b.
Proof.
  destruct value as [| x | z | s | k | n | n m]; simpl; try discriminate.
  - rewrite !String.eqb_eq. intros <-. destruct a, b; (reflexivity || discriminate).
  - rewrite !TypeRef_eqb_eq. intros <-. destruct a, b; (reflexivity || discriminate).
Qed.

Lemma find_unique_Permutation {A} (p : A -> bool) (l l' : list A) :
  (forall a b, p a = true -> p b = true -> a = b) ->
  Permutation l l' -> find p l = find p l'.
Proof.
  intros Huniq. induction 1 as [| x l l' _ IH | x y l | l l' l'' _ IH1 _ IH2].
  - reflexivity.
  - cbn [find]. rewrite IH. reflexivity.
  - cbn [find]. destruct (p x) eqn:Hx, (p y) eqn:Hy; try reflexivity.
    f_equal. apply Huniq; assumption.
  - congruence.
Qed.

(** X6: for a value with the built-in equality, the loop of get gives
    the same answer whatever order the members are visited in: first
    match wins decides nothing there, because no such value matches
    two members. *)
Theorem ValueType_get_order_independent items value :
  custom_eq value = None ->
  Permutation items ValueType.members ->
  ValueType.get_loop items value = ValueType.get value.
Proof.
  intros Heq Hperm. unfold ValueType.get. rewrite !(get_loop_find _ _ Heq). f_equal.
  apply find_unique_Permutation; [apply selects_unique | exact Hperm].
Qed.

Lemma ValueType_get_order_independent_witness :
  ValueType.get_loop
    [ValueType.DATETIME; ValueType.BOOLEAN; ValueType.STRING;
     ValueType.INTEGER; ValueType.FLOAT] (PyType ty_int)
  = ValueType.get (PyType ty_int).
Proof.
  apply (ValueType_get_order_independent
           [ValueType.DATETIME; ValueType.BOOLEAN; ValueType.STRING;
            ValueType.INTEGER; ValueType.FLOAT] (PyType ty_int)).
  { reflexivity. }
  change ValueType.members
    with (rev [ValueType.DATETIME; ValueType.BOOLEAN; ValueType.STRING;
               ValueType.INTEGER; ValueType.FLOAT]).
  apply Permutation_rev.
Defined.
